(** * Scheduler filters: TargetHostFilter (Cinder) and VolumeAffinityFilter (Nova)

    A shallow embedding of [Cinder/target_host_filter.py] and
    [Nova/volume_affinity_filter.py].  Python objects that the filters
    receive by reference live in an explicit store; logging and the call to
    the Cinder API are effects of a small state-and-exception monad. *)

From Stdlib Require Import String Ascii ZArith List Bool.
From stdpp Require Import base option list gmap strings.

Local Open Scope string_scope.
#[local] Set Warnings "-register-all".

(** ** Python values *)

Module Py.

(** The values a scheduler hint or a volume attribute may hold. *)
Inductive pyval : Type :=
  | PyNone
  | PyBool (b : bool)
  | PyInt (z : Z)
  | PyStr (s : string)
  | PyList (l : list pyval)
  | PyDict (d : gmap string pyval).

(** Truth value testing, as done by [not x], [x or y] and [if x]. *)
Definition truthy (v : pyval) : bool :=
  match v with
  | PyNone => false
  | PyBool b => b
  | PyInt z => negb (Z.eqb z 0)
  | PyStr s => negb (String.eqb s "")
  | PyList l => match l with [] => false | _ :: _ => true end
  | PyDict d => negb (bool_decide (d = ∅))
  end.

(** [x or y]. *)
Definition py_or (x y : pyval) : pyval := if truthy x then x else y.

(** [s == v] for a [str] on the left: only an equal [str] compares equal. *)
Definition str_eq (s : string) (v : pyval) : bool :=
  match v with
  | PyStr t => String.eqb s t
  | _ => false
  end.

(** [str.split(sep)] for a one-character separator. *)
Fixpoint split (sep : ascii) (s : string) : list string :=
  match s with
  | EmptyString => [EmptyString]
  | String c s' =>
      if Ascii.eqb c sep then EmptyString :: split sep s'
      else match split sep s' with
           | [] => [String c EmptyString]
           | h :: t => String c h :: t
           end
  end.

(** The substring before the first occurrence of [sep], the whole string when
    [sep] does not occur: the normalisation as the specification words it,
    to be compared with [split sep s] at index 0. *)
Fixpoint substring_before (sep : ascii) (s : string) : string :=
  match s with
  | EmptyString => EmptyString
  | String c s' =>
      if Ascii.eqb c sep then EmptyString
      else String c (substring_before sep s')
  end.

(** [c in s]. *)
Fixpoint occurs (c : ascii) (s : string) : bool :=
  match s with
  | EmptyString => false
  | String c' s' => Ascii.eqb c' c || occurs c s'
  end.

(** Exception classes that can reach the filters, with their ancestors in
    method resolution order.  [cinder_exc_NotFound] derives from
    [cinder_exc_ClientException]; [KeyboardInterrupt] and [SystemExit] derive
    from [BaseException] only. *)
Inductive exc_class : Type :=
  | BaseException
  | KeyboardInterrupt
  | SystemExit
  | Exception
  | AttributeError
  | IndexError
  | ConnectionError
  | cinder_exc_ClientException
  | cinder_exc_NotFound
  | cinder_exc_Unauthorized
  | OtherError (name : string).

#[global] Instance exc_class_eq_dec : EqDecision exc_class.
Proof. solve_decision. Defined.

Definition mro (c : exc_class) : list exc_class :=
  match c with
  | BaseException => [BaseException]
  | KeyboardInterrupt => [KeyboardInterrupt; BaseException]
  | SystemExit => [SystemExit; BaseException]
  | Exception => [Exception; BaseException]
  | AttributeError => [AttributeError; Exception; BaseException]
  | IndexError => [IndexError; Exception; BaseException]
  | ConnectionError => [ConnectionError; Exception; BaseException]
  | cinder_exc_ClientException =>
      [cinder_exc_ClientException; Exception; BaseException]
  | cinder_exc_NotFound =>
      [cinder_exc_NotFound; cinder_exc_ClientException; Exception;
       BaseException]
  | cinder_exc_Unauthorized =>
      [cinder_exc_Unauthorized; cinder_exc_ClientException; Exception;
       BaseException]
  | OtherError name => [OtherError name; Exception; BaseException]
  end.

(** A raised exception: its class and its message. *)
Record exception : Type := mkExc { exc_type : exc_class; exc_msg : string }.

(** [isinstance(e, c)], the test an [except c] clause performs. *)
Definition isinstance (e : exception) (c : exc_class) : bool :=
  bool_decide (c ∈ mro (exc_type e)).

(** The outcome of running a piece of Python code. *)
Inductive result (A : Type) : Type :=
  | Returns (a : A)
  | Raises (e : exception).
Arguments Returns {A} a.
Arguments Raises {A} e.

(** Computations over a store [S] that may raise. *)
Definition M (S A : Type) : Type := S → result A * S.

#[global] Instance M_ret {S} : MRet (M S) := λ A a s, (Returns a, s).

#[global] Instance M_bind {S} : MBind (M S) := λ A B f m s,
  match m s with
  | (Returns a, s') => f a s'
  | (Raises e, s') => (Raises e, s')
  end.

Definition raise {S A} (e : exception) : M S A := λ s, (Raises e, s).
Definition gets {S A} (f : S → A) : M S A := λ s, (Returns (f s), s).
Definition modify {S} (f : S → S) : M S unit := λ s, (Returns tt, f s).

(** [try: body / except ...]: [handlers e] is the body of the first [except]
    clause whose class matches [e], if any. *)
Definition try_except {S A} (body : M S A)
    (handlers : exception → option (M S A)) : M S A := λ s,
  match body s with
  | (Returns a, s') => (Returns a, s')
  | (Raises e, s') =>
      match handlers e with
      | Some h => h s'
      | None => (Raises e, s')
      end
  end.

(** [l[i]]. *)
Definition getitem {S A} (l : list A) (i : nat) : M S A :=
  match l !! i with
  | Some x => mret x
  | None => raise (mkExc IndexError "list index out of range")
  end.

(** [v.split(sep)]: defined on [str] only. *)
Definition str_split {S} (v : pyval) (sep : ascii) : M S (list string) :=
  match v with
  | PyStr s => mret (split sep s)
  | _ => raise (mkExc AttributeError "object has no attribute 'split'")
  end.

(** [d.get(key, None)]: defined on [dict] only. *)
Definition dict_get {S} (d : pyval) (key : string) : M S pyval :=
  match d with
  | PyDict m => mret (default PyNone (m !! key))
  | _ => raise (mkExc AttributeError "object has no attribute 'get'")
  end.

(** Log records: level and the pieces of the formatted message. *)
Inductive level : Type := DEBUG | INFO | WARNING | ERROR.

Inductive piece : Type :=
  | Lit (s : string)
  | Val (v : pyval)
  | Exc (e : exception).

Record LogRecord : Type := mkLog { log_level : level; log_msg : list piece }.

End Py.

Import Py.

(** ** Cinder: [TargetHostFilter] *)

Module Cinder.

Definition HINT_KEYWORD : string := "target_host".

(** The candidate: a storage backend, identified by ["host@backend#pool"]. *)
Record BackendState : Type := mkBackendState {
  backend_id : string;
  free_capacity_gb : Z
}.

(** The objects [backend_passes] receives by reference, and the log. *)
Record Store : Type := mkStore {
  backend_state : BackendState;
  filter_properties : gmap string pyval;
  LOG : list LogRecord
}.

Definition LOG_debug (msg : list piece) : M Store unit :=
  modify (λ s, mkStore (backend_state s) (filter_properties s)
                       (LOG s ++ [mkLog DEBUG msg])).

(** Modelled from the spec: [volume_utils.extract_host] is a function of the
    Cinder library, absent from the sources at hand.  At level ['host'] it
    splits the raw identity string on ['@'] and takes the first component; a
    string without the delimiter is its own host component. *)
Definition volume_utils_extract_host (host level : string) : string :=
  default host (head (split "@" host)).

Section Filter.

(** [volume_utils.extract_host], a collaborator of the filter. *)
Variable extract_host : string → string → string.

(** [TargetHostFilter.backend_passes]. *)
Definition backend_passes : M Store bool :=
  fp ← gets filter_properties;
  let scheduler_hints :=
    py_or (default PyNone (fp !! "scheduler_hints")) (PyDict ∅) in
  target_host ← dict_get scheduler_hints HINT_KEYWORD;
  if negb (truthy target_host) then
    mret true
  else
    backend_host ← gets (λ s, extract_host (backend_id (backend_state s)) "host");
    let matches := str_eq backend_host target_host in
    (if negb matches then
       LOG_debug [Lit "Backend "; Val (PyStr backend_host);
                  Lit " filtered out: does not match target host ";
                  Val target_host]
     else mret tt);;
    mret matches.

End Filter.

(** The request puts no constraint on the backend: the hint map is absent
    (no ['scheduler_hints'] entry, or a falsy one such as [None] or [{}]), or
    it is a dict in which ['target_host'] is absent or falsy. *)
Definition unconstrained (fp : gmap string pyval) : Prop :=
  fp !! "scheduler_hints" = None
  ∨ (∃ v, fp !! "scheduler_hints" = Some v ∧ truthy v = false)
  ∨ (∃ d, fp !! "scheduler_hints" = Some (PyDict d)
          ∧ (d !! HINT_KEYWORD = None
             ∨ ∃ v, d !! HINT_KEYWORD = Some v ∧ truthy v = false)).

(** Sample stores. *)
Definition backend1 : BackendState := mkBackendState "nodeA@lvm-1" 100.

Definition request_for (target_host : pyval) : gmap string pyval :=
  {[ "scheduler_hints" := PyDict {[ HINT_KEYWORD := target_host ]} ]}.

Definition store_for (target_host : pyval) : Store :=
  mkStore backend1 (request_for target_host) [].

Definition store_no_hints : Store :=
  mkStore backend1 {[ "size" := PyInt 10 ]} [].

(** The same candidate and request later on, with a log that is not empty. *)
Definition store_later (target_host : pyval) : Store :=
  mkStore backend1 (request_for target_host)
          [mkLog DEBUG [Lit "Backend nodeB filtered out"]].

End Cinder.

(** ** Nova: [VolumeAffinityFilter] *)

Module Nova.

(** The candidate: a compute host. *)
Record HostState : Type := mkHostState {
  host : string;
  nodename : string
}.

Record RequestContext : Type := mkRequestContext {
  user_id : string;
  project_id : string;
  is_admin : bool
}.

(** Modelled from the spec: [RequestContext.elevated] belongs to Nova and is
    absent from the sources at hand.  It returns a privileged version of the
    context and leaves the context it is called on as it was. *)
Definition elevated (ctxt : RequestContext) : RequestContext :=
  mkRequestContext (user_id ctxt) (project_id ctxt) true.

(** The request: its context, [None] when the request carries none, and its
    optional hint map. *)
Record RequestSpec : Type := mkRequestSpec {
  _context : option RequestContext;
  scheduler_hints : option (gmap string pyval)
}.

(** Modelled from the spec: [RequestSpec.get_scheduler_hint] belongs to Nova
    and is absent from the sources at hand.  The request carries an optional
    mapping of hint name to hint value; a hint that is not there reads as
    [None]. *)
Definition get_scheduler_hint (spec_obj : RequestSpec) (hint_name : string)
    : pyval :=
  match scheduler_hints spec_obj with
  | None => PyNone
  | Some hints => default PyNone (hints !! hint_name)
  end.

(** A volume as returned by the Cinder client: its attributes by name. *)
Abbreviation Volume := (gmap string pyval).

(** [getattr(volume, name, None)]. *)
Definition getattr (volume : Volume) (name : string) : pyval :=
  default PyNone (volume !! name).

(** The objects [host_passes] receives by reference, the log, and the
    requests sent to the Cinder API so far. *)
Record Store : Type := mkStore {
  host_state : HostState;
  spec_obj : RequestSpec;
  LOG : list LogRecord;
  cinder_requests : list (RequestContext * pyval)
}.

Definition emit (lvl : level) (msg : list piece) : M Store unit :=
  modify (λ s, mkStore (host_state s) (spec_obj s)
                       (LOG s ++ [mkLog lvl msg]) (cinder_requests s)).

Definition LOG_debug := emit DEBUG.
Definition LOG_warning := emit WARNING.
Definition LOG_error := emit ERROR.

(** A Cinder client: it carries the context it was built for. *)
Record Client : Type := mkClient { client_context : RequestContext }.

(** The Cinder service as seen from the filter: the exception, if any, that
    building a client for a context raises (no endpoint, no credentials), and
    what a [volumes.get] answers, given the requests already served, the
    context of the client and the volume id. *)
Record CinderAPI : Type := mkCinderAPI {
  cinderclient_error : RequestContext → option exception;
  volumes_get_answer :
    list (RequestContext * pyval) → RequestContext → pyval → result Volume
}.

(** [spec_obj._context.elevated()]: [None] has no [elevated]. *)
Definition context_elevated (spec_obj : RequestSpec)
    : M Store RequestContext :=
  match _context spec_obj with
  | Some ctxt => mret (elevated ctxt)
  | None =>
      raise (mkExc AttributeError "object has no attribute 'elevated'")
  end.

Section Filter.

Variable cinder : CinderAPI.

(** [cinder.cinderclient(ctxt)]: builds the client; sends no lookup. *)
Definition cinderclient (ctxt : RequestContext) : M Store Client :=
  match cinderclient_error cinder ctxt with
  | Some e => raise e
  | None => mret (mkClient ctxt)
  end.

(** [client.volumes.get(volume_id)]: one request to the Cinder API, answered
    with a volume or with an exception. *)
Definition volumes_get (client : Client) (volume_id : pyval)
    : M Store Volume := λ s,
  (volumes_get_answer cinder (cinder_requests s) (client_context client)
     volume_id,
   mkStore (host_state s) (spec_obj s) (LOG s)
           (cinder_requests s ++ [(client_context client, volume_id)])).

(** [VolumeAffinityFilter.host_passes]. *)
Definition host_passes : M Store bool :=
  volume_id ← gets (λ s, get_scheduler_hint (spec_obj s) "same_volume_host");
  if negb (truthy volume_id) then
    LOG_debug [Lit "No same_volume_host hint provided, skipping filter"];;
    mret true
  else
    try_except
      (ctxt ← (request ← gets spec_obj; context_elevated request);
       client ← cinderclient ctxt;
       volume ← volumes_get client volume_id;
       let volume_host := getattr volume "os-vol-host-attr:host" in
       if negb (truthy volume_host) then
         LOG_warning [Lit "Could not determine host for volume ";
                      Val volume_id];;
         mret false
       else
         parts ← str_split volume_host "@";
         volume_host_name ← getitem parts 0;
         host_state_host ← gets (λ s, host (host_state s));
         if String.eqb host_state_host volume_host_name then
           LOG_debug [Lit "Host "; Val (PyStr host_state_host);
                      Lit " matches volume location for volume ";
                      Val volume_id];;
           mret true
         else
           LOG_debug [Lit "Host "; Val (PyStr host_state_host);
                      Lit " does not match volume location ";
                      Val (PyStr volume_host_name);
                      Lit " for volume "; Val volume_id];;
           mret false)
      (λ ex,
         if isinstance ex cinder_exc_NotFound then
           Some (LOG_warning [Lit "Volume "; Val volume_id;
                              Lit " not found in Cinder"];;
                 mret false)
         else if isinstance ex Exception then
           Some (LOG_error [Lit "Error checking volume location for volume ";
                            Val volume_id; Lit ": "; Exc ex];;
                 mret false)
         else None).

End Filter.

(** The request puts no constraint on the host: the hint map is absent, or
    ['same_volume_host'] is absent from it or falsy. *)
Definition unconstrained (spec_obj : RequestSpec) : Prop :=
  scheduler_hints spec_obj = None
  ∨ (∃ hints, scheduler_hints spec_obj = Some hints
       ∧ (hints !! "same_volume_host" = None
          ∨ ∃ v, hints !! "same_volume_host" = Some v ∧ truthy v = false)).

(** The request that [host_passes] sends to the Cinder API once past the
    guard on the hint: none when the request has no context to elevate or
    when the client cannot be built. *)
Definition lookup_request (cinder : CinderAPI) (st : Store)
    : option (RequestContext * pyval) :=
  match _context (spec_obj st) with
  | None => None
  | Some ctxt =>
      match cinderclient_error cinder (elevated ctxt) with
      | Some _ => None
      | None =>
          Some (elevated ctxt,
                get_scheduler_hint (spec_obj st) "same_volume_host")
      end
  end.

(** The outcome of the lookup of lines 59 and 60 in store [st]: the volume
    that [volumes.get] returns, or the exception that the elevation of the
    context, the building of the client or [volumes.get] raises. *)
Definition lookup_outcome (cinder : CinderAPI) (st : Store) : result Volume :=
  match _context (spec_obj st) with
  | None => Raises (mkExc AttributeError "object has no attribute 'elevated'")
  | Some ctxt =>
      match cinderclient_error cinder (elevated ctxt) with
      | Some e => Raises e
      | None =>
          volumes_get_answer cinder (cinder_requests st) (elevated ctxt)
            (get_scheduler_hint (spec_obj st) "same_volume_host")
      end
  end.

(** The requests sent to the Cinder API during one evaluation. *)
Definition lookups (cinder : CinderAPI) (st : Store)
    : list (RequestContext * pyval) :=
  drop (length (cinder_requests st))
       (cinder_requests (host_passes cinder st).2).

(** Sample stores and Cinder APIs. *)
Definition ctxt0 : RequestContext := mkRequestContext "alice" "demo" false.

Definition store_for (host_name : string) (volume_id : pyval) : Store :=
  mkStore (mkHostState host_name "node-1")
          (mkRequestSpec (Some ctxt0)
             (Some {[ "same_volume_host" := volume_id ]}))
          [] [].

Definition store_no_hints (host_name : string) : Store :=
  mkStore (mkHostState host_name "node-1") (mkRequestSpec (Some ctxt0) None)
          [] [].

(** The same candidate and request later on: the log is not empty and the
    Cinder API has served a request already. *)
Definition store_later (host_name : string) (volume_id : pyval) : Store :=
  mkStore (mkHostState host_name "node-1")
          (mkRequestSpec (Some ctxt0)
             (Some {[ "same_volume_host" := volume_id ]}))
          [mkLog ERROR [Lit "Error checking volume location"]]
          [(elevated ctxt0, volume_id)].

Definition volume_on (owner : pyval) : Volume :=
  {[ "id" := PyStr "vol-123"; "os-vol-host-attr:host" := owner ]}.

Definition volume_without_host : Volume := {[ "id" := PyStr "vol-123" ]}.

(** A Cinder API whose client can be built and whose [volumes.get] gives
    [r]. *)
Definition answering (r : result Volume) : CinderAPI :=
  mkCinderAPI (λ _, None) (λ _ _ _, r).

(** A Cinder API that fails on the first request and answers from the
    second request on. *)
Definition flaky (v : Volume) : CinderAPI :=
  mkCinderAPI (λ _, None)
    (λ served _ _,
       match served with
       | [] => Raises (mkExc ConnectionError "connection refused")
       | _ :: _ => Returns v
       end).

(** A Cinder API whose client cannot be built; it would answer a request
    with [v]. *)
Definition unreachable (e : exception) (v : Volume) : CinderAPI :=
  mkCinderAPI (λ _, Some e) (λ _ _ _, Returns v).

(** A request that carries no context. *)
Definition store_without_context (host_name : string) (volume_id : pyval)
    : Store :=
  mkStore (mkHostState host_name "node-1")
          (mkRequestSpec None (Some {[ "same_volume_host" := volume_id ]}))
          [] [].

End Nova.

(** * Properties *)

(** ** Strings and exceptions *)

Section StringFacts.

Variable sep : ascii.

Lemma split_nonempty (s : string) : split sep s ≠ [].
Proof.
  induction s as [|c s IH]; simpl; [discriminate|].
  destruct (Ascii.eqb c sep); [discriminate|].
  destruct (split sep s); [contradiction|discriminate].
Qed.

(** [s.split(sep)[0]] is the substring of [s] before the first [sep]. *)
Lemma split_head (s : string) :
  split sep s !! 0 = Some (substring_before sep s).
Proof.
  induction s as [|c s IH]; simpl; [reflexivity|].
  destruct (Ascii.eqb c sep); [reflexivity|].
  destruct (split sep s) as [|h t]; [discriminate|].
  simpl in *. congruence.
Qed.

Lemma substring_before_free (s : string) :
  occurs sep (substring_before sep s) = false.
Proof.
  induction s as [|c s IH]; simpl; [reflexivity|].
  destruct (Ascii.eqb c sep) eqn:E; simpl; [reflexivity|].
  by rewrite E, IH.
Qed.

(** [substring_before sep s] is a prefix of [s] that stops at the first [sep],
    or is [s] itself when there is none. *)
Lemma substring_before_prefix (s : string) :
  s = substring_before sep s
  ∨ ∃ rest, s = (substring_before sep s ++ String sep rest)%string.
Proof.
  induction s as [|c s IH]; simpl; [by left|].
  destruct (Ascii.eqb c sep) eqn:E.
  - apply Ascii.eqb_eq in E as ->. right. by exists s.
  - destruct IH as [IH|[rest IH]].
    + left. congruence.
    + right. exists rest.
      change (String c s = String c (substring_before sep s ++ String sep rest)).
      by f_equal.
Qed.

Lemma substring_before_absent (s : string) :
  occurs sep s = false → substring_before sep s = s.
Proof.
  induction s as [|c s IH]; simpl; [done|].
  intros [E1 E2]%orb_false_elim. rewrite E1. by rewrite IH.
Qed.

End StringFacts.

(** An identity string without delimiter is its own host component. *)
Lemma extract_host_plain (host level : string) :
  occurs "@" host = false →
  Cinder.volume_utils_extract_host host level = host.
Proof.
  intros Hfree. unfold Cinder.volume_utils_extract_host.
  rewrite head_lookup, split_head. simpl.
  by apply substring_before_absent.
Qed.

Lemma truthy_str (s : string) : truthy (PyStr s) = true ↔ s ≠ "".
Proof.
  simpl. rewrite negb_true_iff. split.
  - intros E ->. by rewrite String.eqb_refl in E.
  - intros Hne. by apply String.eqb_neq.
Qed.

Lemma str_eq_true (s : string) (v : pyval) : str_eq s v = true ↔ v = PyStr s.
Proof.
  destruct v; simpl; try (split; intros ?; discriminate).
  rewrite String.eqb_eq. split; [intros ->; reflexivity | intros [= ->]; reflexivity].
Qed.

Lemma isinstance_Exception_NotFound (e : exception) :
  isinstance e cinder_exc_NotFound = true → isinstance e Exception = true.
Proof.
  destruct e as [c msg]. unfold isinstance. simpl.
  destruct c; vm_compute; congruence.
Qed.

(** ** [VolumeAffinityFilter.host_passes], branch by branch *)

Import Nova.

Ltac unfold_effects :=
  unfold try_except, context_elevated, cinderclient, volumes_get, LOG_debug,
    LOG_warning, LOG_error, emit, modify, str_split, getitem, dict_get, gets,
    raise, mbind, M_bind, mret, M_ret.

(** Past the guard on the hint: the three ways lines 59 and 60 can go (no
    context to elevate, no client, a request sent). *)
Ltac enter_lookup Hhint :=
  unfold lookup_outcome, lookup_request, host_passes;
  unfold mbind at 1, M_bind at 1, gets at 1;
  rewrite Hhint; unfold_effects; simpl;
  destruct (_context (spec_obj _)) as [ctxt|]; simpl;
  [destruct (cinderclient_error _ _) as [early|]; simpl|].

(** Case analysis on what the goal still branches on: the context, the
    client, the answer, the owning identity, the handlers, the comparison. *)
Ltac walk :=
  repeat (simpl; rewrite ?split_head;
          match goal with
          | |- context [_context ?r] => destruct (_context r) eqn:?
          | |- context [cinderclient_error ?c ?x] =>
              destruct (cinderclient_error c x) eqn:?
          | |- context [volumes_get_answer ?c ?a ?b ?d] =>
              destruct (volumes_get_answer c a b d) eqn:?
          | |- context [truthy (getattr ?v ?n)] =>
              destruct (truthy (getattr v n)) eqn:?
          | |- context [match getattr ?v ?n with _ => _ end] =>
              destruct (getattr v n) eqn:?
          | |- context [isinstance ?e ?c] => destruct (isinstance e c) eqn:?
          | |- context [String.eqb ?a ?b] => destruct (String.eqb a b) eqn:?
          | |- context [truthy ?v] => destruct (truthy v) eqn:?
          end);
  simpl.

Lemma store_eta (s : Store) :
  mkStore (host_state s) (spec_obj s) (LOG s) (cinder_requests s) = s.
Proof. by destruct s. Qed.

Section HostPasses.

Variable cinder : CinderAPI.
Variable st : Store.

Abbreviation volume_id := (get_scheduler_hint (spec_obj st) "same_volume_host").

(** The store once the lookup has been attempted. *)
Abbreviation sent :=
  (mkStore (host_state st) (spec_obj st) (LOG st)
           (cinder_requests st ++ option_list (lookup_request cinder st))).

Abbreviation sent_and_logged lvl msg :=
  (mkStore (host_state st) (spec_obj st) (LOG st ++ [mkLog lvl msg])
           (cinder_requests st ++ option_list (lookup_request cinder st))).

Lemma host_passes_skip :
  truthy volume_id = false →
  host_passes cinder st =
    (Returns true,
     mkStore (host_state st) (spec_obj st)
       (LOG st ++
        [mkLog DEBUG [Lit "No same_volume_host hint provided, skipping filter"]])
       (cinder_requests st)).
Proof.
  intros Hhint. unfold host_passes.
  unfold mbind at 1, M_bind at 1, gets at 1.
  rewrite Hhint. reflexivity.
Qed.

Hypothesis hint_set : truthy volume_id = true.

Lemma host_passes_not_found (e : exception) :
  lookup_outcome cinder st = Raises e →
  isinstance e cinder_exc_NotFound = true →
  host_passes cinder st =
    (Returns false,
     sent_and_logged WARNING
       [Lit "Volume "; Val volume_id; Lit " not found in Cinder"]).
Proof.
  enter_lookup hint_set.
  - intros [= ->] Hnf. rewrite Hnf. simpl. by rewrite app_nil_r.
  - intros Hout Hnf. rewrite Hout, Hnf. reflexivity.
  - intros [= <-] Hnf. vm_compute in Hnf. discriminate Hnf.
Qed.

Lemma host_passes_error (e : exception) :
  lookup_outcome cinder st = Raises e →
  isinstance e cinder_exc_NotFound = false →
  isinstance e Exception = true →
  host_passes cinder st =
    (Returns false,
     sent_and_logged ERROR
       [Lit "Error checking volume location for volume "; Val volume_id;
        Lit ": "; Exc e]).
Proof.
  enter_lookup hint_set.
  - intros [= ->] Hnf Hexc. rewrite Hnf, Hexc. simpl. by rewrite app_nil_r.
  - intros Hout Hnf Hexc. rewrite Hout, Hnf, Hexc. reflexivity.
  - intros [= <-] _ _. simpl. by rewrite app_nil_r.
Qed.

(** What is not an [Exception] is not caught. *)
Lemma host_passes_uncaught (e : exception) :
  lookup_outcome cinder st = Raises e →
  isinstance e Exception = false →
  host_passes cinder st = (Raises e, sent).
Proof.
  assert (Hnf : isinstance e Exception = false →
                isinstance e cinder_exc_NotFound = false).
  { intros Hexc. destruct (isinstance e cinder_exc_NotFound) eqn:Hnf; [|done].
    apply isinstance_Exception_NotFound in Hnf. congruence. }
  enter_lookup hint_set.
  - intros [= ->] Hexc. rewrite (Hnf Hexc), Hexc. simpl.
    by rewrite app_nil_r, store_eta.
  - intros Hout Hexc. rewrite Hout, (Hnf Hexc), Hexc. reflexivity.
  - intros [= <-] Hexc. vm_compute in Hexc. discriminate Hexc.
Qed.

Lemma host_passes_no_owner (volume : Volume) :
  lookup_outcome cinder st = Returns volume →
  truthy (getattr volume "os-vol-host-attr:host") = false →
  host_passes cinder st =
    (Returns false,
     sent_and_logged WARNING
       [Lit "Could not determine host for volume "; Val volume_id]).
Proof.
  enter_lookup hint_set; [discriminate| |discriminate].
  intros Hout Hattr. rewrite Hout, Hattr. reflexivity.
Qed.

Lemma host_passes_owner (volume : Volume) (owner : string) :
  lookup_outcome cinder st = Returns volume →
  getattr volume "os-vol-host-attr:host" = PyStr owner →
  owner ≠ "" →
  host_passes cinder st =
    let name := substring_before "@" owner in
    if String.eqb (host (host_state st)) name then
      (Returns true,
       sent_and_logged DEBUG
         [Lit "Host "; Val (PyStr (host (host_state st)));
          Lit " matches volume location for volume "; Val volume_id])
    else
      (Returns false,
       sent_and_logged DEBUG
         [Lit "Host "; Val (PyStr (host (host_state st)));
          Lit " does not match volume location "; Val (PyStr name);
          Lit " for volume "; Val volume_id]).
Proof.
  enter_lookup hint_set; [discriminate| |discriminate].
  intros Hout Hattr Hne. apply truthy_str in Hne.
  rewrite Hout, Hattr, Hne. simpl. rewrite split_head. simpl.
  destruct (String.eqb _ _); reflexivity.
Qed.

End HostPasses.

(** The requests recorded in the store after an evaluation. *)
Lemma host_passes_requests (cinder : CinderAPI) (st : Store) :
  cinder_requests (host_passes cinder st).2 =
    (cinder_requests st ++
     if truthy (get_scheduler_hint (spec_obj st) "same_volume_host")
     then option_list (lookup_request cinder st) else [])%list.
Proof.
  unfold host_passes, lookup_request. unfold_effects. simpl.
  destruct (truthy (get_scheduler_hint _ _)); simpl;
    [|by rewrite app_nil_r].
  destruct (_context (spec_obj st)) as [ctxt|]; simpl;
    [|by rewrite app_nil_r].
  destruct (cinderclient_error cinder (elevated ctxt)) as [early|]; simpl.
  - walk; by rewrite app_nil_r.
  - walk; reflexivity.
Qed.

(** The candidate and the request recorded in the store after an
    evaluation. *)
Lemma host_passes_frame (cinder : CinderAPI) (st : Store) :
  host_state (host_passes cinder st).2 = host_state st
  ∧ spec_obj (host_passes cinder st).2 = spec_obj st.
Proof.
  unfold host_passes. unfold_effects. walk; done.
Qed.

(** The verdict is a function of the candidate, the request and the outcome
    of the lookup; the log and the requests served before play no part. *)
Lemma host_passes_verdict (c1 c2 : CinderAPI) (st1 st2 : Store) :
  host_state st1 = host_state st2 →
  spec_obj st1 = spec_obj st2 →
  lookup_outcome c1 st1 = lookup_outcome c2 st2 →
  (host_passes c1 st1).1 = (host_passes c2 st2).1.
Proof.
  unfold lookup_outcome.
  destruct st1 as [h1 r1 log1 served1], st2 as [h2 r2 log2 served2].
  simpl. intros -> ->.
  unfold host_passes. unfold_effects. simpl.
  destruct (truthy (get_scheduler_hint _ _)); simpl; [|done].
  destruct (_context r2) as [ctxt|]; simpl; [|done].
  destruct (cinderclient_error c1 _) as [e1|],
           (cinderclient_error c2 _) as [e2|]; simpl.
  - intros [= ->]. walk; done.
  - intros <-. walk; done.
  - intros ->. walk; done.
  - intros ->. walk; simpl in *; congruence.
Qed.

(** When the lookup returns a volume, context and client were obtained: an
    API that answers anything else is sent the same request. *)
Lemma lookup_answering (cinder : CinderAPI) (st : Store) (volume : Volume)
    (r : result Volume) :
  lookup_outcome cinder st = Returns volume →
  lookup_outcome (answering r) st = r
  ∧ lookup_request (answering r) st = lookup_request cinder st.
Proof.
  unfold lookup_outcome, lookup_request. simpl.
  destruct (_context (spec_obj st)) as [ctxt|]; [|discriminate].
  by destruct (cinderclient_error cinder (elevated ctxt)).
Qed.

Lemma unconstrained_falsy (spec_obj : RequestSpec) :
  unconstrained spec_obj ↔
  truthy (get_scheduler_hint spec_obj "same_volume_host") = false.
Proof.
  unfold unconstrained, get_scheduler_hint.
  destruct (scheduler_hints spec_obj) as [hints|]; [|by split; [|left]].
  split.
  - intros [?|(hints' & [= <-] & [->|(v & -> & Hv)])]; done.
  - intros Hv. right. exists hints. split; [done|].
    destruct (hints !! "same_volume_host") as [v|]; [|by left].
    right. by exists v.
Qed.

(** ** [TargetHostFilter.backend_passes], branch by branch *)

Section BackendPasses.

Import Cinder.

Variable extract_host : string → string → string.
Variable st : Cinder.Store.

Lemma py_or_dict (d : gmap string pyval) (key : string) :
  dict_get (S := Cinder.Store) (py_or (PyDict d) (PyDict ∅)) key =
  dict_get (PyDict d) key.
Proof.
  unfold py_or. simpl. case_bool_decide as Hd; simpl; [|done].
  by rewrite Hd.
Qed.

Lemma backend_passes_skip :
  Cinder.unconstrained (filter_properties st) →
  backend_passes extract_host st = (Returns true, st).
Proof.
  unfold backend_passes.
  unfold mbind at 1, M_bind at 1, gets at 1.
  intros [Hfp|[(v & Hfp & Hv)|(d & Hfp & Hd)]]; rewrite Hfp; simpl.
  - reflexivity.
  - unfold py_or. rewrite Hv. reflexivity.
  - unfold mbind, M_bind. rewrite py_or_dict. simpl.
    destruct Hd as [->|(v & -> & Hv)]; simpl; [done|].
    by rewrite Hv.
Qed.

Lemma backend_passes_hint (d : gmap string pyval) (target_host : pyval) :
  filter_properties st !! "scheduler_hints" = Some (PyDict d) →
  d !! HINT_KEYWORD = Some target_host →
  truthy target_host = true →
  backend_passes extract_host st =
    let backend_host := extract_host (backend_id (backend_state st)) "host" in
    if str_eq backend_host target_host then (Returns true, st)
    else
      (Returns false,
       Cinder.mkStore (backend_state st) (filter_properties st)
         (Cinder.LOG st ++
          [mkLog DEBUG
             [Lit "Backend "; Val (PyStr backend_host);
              Lit " filtered out: does not match target host ";
              Val target_host]])).
Proof.
  intros Hfp Hd Hv. unfold backend_passes.
  unfold mbind at 1, M_bind at 1, gets at 1.
  rewrite Hfp. simpl. unfold mbind, M_bind. rewrite py_or_dict. simpl.
  rewrite Hd. simpl. rewrite Hv. simpl.
  by destruct (str_eq _ _).
Qed.

(** The candidate and the request recorded in the store after an
    evaluation. *)
Lemma backend_passes_frame :
  backend_state (backend_passes extract_host st).2 = backend_state st
  ∧ filter_properties (backend_passes extract_host st).2
    = filter_properties st.
Proof.
  unfold backend_passes. unfold_effects. unfold Cinder.LOG_debug, modify.
  simpl.
  destruct (py_or _ _); simpl; try done.
  destruct (truthy (default PyNone _)); simpl; [|done].
  by destruct (str_eq _ _).
Qed.

End BackendPasses.

(** The verdict is a function of the candidate and the request; the log
    plays no part. *)
Lemma backend_passes_verdict (extract_host : string → string → string)
    (st1 st2 : Cinder.Store) :
  Cinder.backend_state st1 = Cinder.backend_state st2 →
  Cinder.filter_properties st1 = Cinder.filter_properties st2 →
  (Cinder.backend_passes extract_host st1).1
  = (Cinder.backend_passes extract_host st2).1.
Proof.
  destruct st1 as [b1 fp1 log1], st2 as [b2 fp2 log2]. simpl.
  intros -> ->.
  unfold Cinder.backend_passes. unfold_effects.
  unfold Cinder.LOG_debug, modify. simpl.
  destruct (py_or _ _); simpl; try done.
  destruct (truthy (default PyNone _)); simpl; [|done].
  by destruct (str_eq _ _).
Qed.

(** ** The claims *)

(** C1.  Affinity-Resolution Filter: when the [same_volume_host] hint is set
    and the lookup fails with an error ([Exception]) other than not-found,
    the evaluation returns [False]; no exception reaches the caller. *)
Theorem host_passes_lookup_error_fails_closed
    (cinder : CinderAPI) (st : Store) (e : exception) :
  truthy (get_scheduler_hint (spec_obj st) "same_volume_host") = true →
  lookup_outcome cinder st = Raises e →
  isinstance e Exception = true →
  isinstance e cinder_exc_NotFound = false →
  (host_passes cinder st).1 = Returns false
  ∧ ∀ e', (host_passes cinder st).1 ≠ Raises e'.
Proof.
  intros Hhint Hout Hexc Hnf.
  rewrite (host_passes_error cinder st Hhint e Hout Hnf Hexc).
  split; [reflexivity|discriminate].
Qed.

Lemma host_passes_lookup_error_fails_closed_witness :
  (host_passes (answering (Raises (mkExc ConnectionError "timed out")))
               (store_for "nodeA" (PyStr "vol-123"))).1 = Returns false
  ∧ ∀ e', (host_passes (answering (Raises (mkExc ConnectionError "timed out")))
                       (store_for "nodeA" (PyStr "vol-123"))).1 ≠ Raises e'.
Proof.
  apply (host_passes_lookup_error_fails_closed _ _
           (mkExc ConnectionError "timed out")); reflexivity.
Defined.

(** C2.  Affinity-Resolution Filter: when the [same_volume_host] hint is set
    and the lookup reports the volume as not found, the evaluation returns
    [False], whatever the candidate. *)
Theorem host_passes_not_found_fails
    (cinder : CinderAPI) (st : Store) (e : exception) :
  truthy (get_scheduler_hint (spec_obj st) "same_volume_host") = true →
  lookup_outcome cinder st = Raises e →
  isinstance e cinder_exc_NotFound = true →
  (host_passes cinder st).1 = Returns false.
Proof.
  intros Hhint Hout Hnf.
  by rewrite (host_passes_not_found cinder st Hhint e Hout Hnf).
Qed.

Lemma host_passes_not_found_fails_witness :
  (host_passes (answering (Raises (mkExc cinder_exc_NotFound "vol-123")))
               (store_for "nodeA" (PyStr "vol-123"))).1 = Returns false.
Proof.
  apply (host_passes_not_found_fails _ _
           (mkExc cinder_exc_NotFound "vol-123")); reflexivity.
Defined.

(** C3.  Affinity-Resolution Filter: when the [same_volume_host] hint is set
    and the lookup succeeds with a volume that lacks the attribute
    [os-vol-host-attr:host], the evaluation returns [False]. *)
Theorem host_passes_missing_owner_fails
    (cinder : CinderAPI) (st : Store) (volume : Volume) :
  truthy (get_scheduler_hint (spec_obj st) "same_volume_host") = true →
  lookup_outcome cinder st = Returns volume →
  volume !! "os-vol-host-attr:host" = None →
  (host_passes cinder st).1 = Returns false.
Proof.
  intros Hhint Hout Hattr.
  rewrite (host_passes_no_owner cinder st Hhint volume Hout); [done|].
  unfold getattr. by rewrite Hattr.
Qed.

Lemma host_passes_missing_owner_fails_witness :
  (host_passes (answering (Returns volume_without_host))
               (store_for "nodeA" (PyStr "vol-123"))).1 = Returns false.
Proof.
  apply (host_passes_missing_owner_fails _ _ volume_without_host);
    reflexivity.
Defined.

(** C4.  Both filters: when the relevant hint ([target_host], respectively
    [same_volume_host]) is absent or falsy, or the hint map itself is absent,
    the evaluation returns [True], whatever the candidate. *)
Theorem no_hint_passes :
  (∀ extract_host (st : Cinder.Store),
     Cinder.unconstrained (Cinder.filter_properties st) →
     (Cinder.backend_passes extract_host st).1 = Returns true)
  ∧ (∀ cinder (st : Store),
       unconstrained (spec_obj st) →
       (host_passes cinder st).1 = Returns true).
Proof.
  split.
  - intros extract_host st Hfree.
    by rewrite (backend_passes_skip extract_host st Hfree).
  - intros cinder st Hfree%unconstrained_falsy.
    by rewrite (host_passes_skip cinder st Hfree).
Qed.

Lemma no_hint_passes_witness :
  (Cinder.backend_passes Cinder.volume_utils_extract_host
     Cinder.store_no_hints).1 = Returns true
  ∧ (Cinder.backend_passes Cinder.volume_utils_extract_host
       (Cinder.store_for (PyStr ""))).1 = Returns true
  ∧ (host_passes (answering (Returns (volume_on (PyStr "nodeB@lvm-1"))))
                 (store_no_hints "nodeA")).1 = Returns true
  ∧ (host_passes (answering (Returns (volume_on (PyStr "nodeB@lvm-1"))))
                 (store_for "nodeA" (PyStr ""))).1 = Returns true.
Proof.
  split; [|split; [|split]].
  - apply (proj1 no_hint_passes). left. reflexivity.
  - apply (proj1 no_hint_passes). right. right.
    exists {[ Cinder.HINT_KEYWORD := PyStr "" ]}. split; [reflexivity|].
    right. exists (PyStr ""). split; reflexivity.
  - apply (proj2 no_hint_passes). left. reflexivity.
  - apply (proj2 no_hint_passes). right.
    exists {[ "same_volume_host" := PyStr "" ]}. split; [reflexivity|].
    right. exists (PyStr ""). split; reflexivity.
Defined.

(** C5.  Affinity-Resolution Filter: when the [same_volume_host] hint is set
    and the lookup yields a volume whose owning identity is a non-empty
    string, the owning identity is normalised to its substring before the
    first ['@'] (that is what [split('@')[0]] computes) and the evaluation
    returns [True] exactly when the candidate's host equals the normalised
    name.  With owning identity ["nodeA@backend1#poolX"], candidate ["nodeA"]
    passes and candidate ["nodeB"] does not. *)
Theorem host_passes_compares_normalized_owner
    (cinder : CinderAPI) (st : Store) (volume : Volume) (owner : string) :
  truthy (get_scheduler_hint (spec_obj st) "same_volume_host") = true →
  lookup_outcome cinder st = Returns volume →
  volume !! "os-vol-host-attr:host" = Some (PyStr owner) →
  owner ≠ "" →
  split "@" owner !! 0 = Some (substring_before "@" owner)
  ∧ (host_passes cinder st).1
    = Returns (bool_decide (host (host_state st) = substring_before "@" owner))
  ∧ (owner = "nodeA@backend1#poolX" → host (host_state st) = "nodeA" →
     (host_passes cinder st).1 = Returns true)
  ∧ (owner = "nodeA@backend1#poolX" → host (host_state st) = "nodeB" →
     (host_passes cinder st).1 = Returns false).
Proof.
  intros Hhint Hout Hattr Hne.
  assert (Hrun : (host_passes cinder st).1
            = Returns (bool_decide
                         (host (host_state st) = substring_before "@" owner))).
  { rewrite (host_passes_owner cinder st Hhint volume owner Hout); [|
      unfold getattr; by rewrite Hattr | done].
    simpl. destruct (String.eqb_spec (host (host_state st))
                       (substring_before "@" owner)) as [Heq|Hneq]; simpl.
    - by rewrite bool_decide_eq_true_2.
    - by rewrite bool_decide_eq_false_2. }
  split; [apply split_head|]. split; [exact Hrun|].
  split; intros -> Hhost; rewrite Hrun, Hhost; reflexivity.
Qed.

Lemma host_passes_compares_normalized_owner_witness :
  (host_passes (answering (Returns (volume_on (PyStr "hostX@lvm-1"))))
               (store_for "hostX" (PyStr "vol-123"))).1 = Returns true
  ∧ (host_passes (answering (Returns (volume_on (PyStr "hostX@lvm-1"))))
                 (store_for "hostY" (PyStr "vol-123"))).1 = Returns false.
Proof.
  split.
  - destruct (host_passes_compares_normalized_owner
                (answering (Returns (volume_on (PyStr "hostX@lvm-1"))))
                (store_for "hostX" (PyStr "vol-123"))
                (volume_on (PyStr "hostX@lvm-1")) "hostX@lvm-1")
      as (_ & Hrun & _);
      [reflexivity | reflexivity | reflexivity | discriminate | exact Hrun].
  - destruct (host_passes_compares_normalized_owner
                (answering (Returns (volume_on (PyStr "hostX@lvm-1"))))
                (store_for "hostY" (PyStr "vol-123"))
                (volume_on (PyStr "hostX@lvm-1")) "hostX@lvm-1")
      as (_ & Hrun & _);
      [reflexivity | reflexivity | reflexivity | discriminate | exact Hrun].
Defined.

(** C6.  Direct-Identity Filter: when the [target_host] hint is set to a
    non-empty (truthy) value, the evaluation returns [True] exactly when the
    hint is the string that [extract_host] gives as the host component of the
    candidate's [backend_id], and [False] for every other value: the
    comparison is plain equality, so case matters and neither a wildcard nor
    a prefix matches. *)
Theorem backend_passes_exact_match
    (extract_host : string → string → string) (st : Cinder.Store)
    (d : gmap string pyval) (target_host : pyval) :
  Cinder.filter_properties st !! "scheduler_hints" = Some (PyDict d) →
  d !! Cinder.HINT_KEYWORD = Some target_host →
  truthy target_host = true →
  let backend_host :=
    extract_host (Cinder.backend_id (Cinder.backend_state st)) "host" in
  ((Cinder.backend_passes extract_host st).1 = Returns true
   ↔ target_host = PyStr backend_host)
  ∧ ((Cinder.backend_passes extract_host st).1 = Returns false
     ↔ target_host ≠ PyStr backend_host).
Proof.
  intros Hfp Hd Hv backend_host.
  rewrite (backend_passes_hint extract_host st d target_host Hfp Hd Hv).
  simpl. fold backend_host.
  destruct (str_eq backend_host target_host) eqn:Heq; simpl.
  - apply str_eq_true in Heq. split; split; done.
  - assert (target_host ≠ PyStr backend_host) as Hne.
    { intros Heq'%str_eq_true. congruence. }
    split; split; done.
Qed.

Lemma backend_passes_exact_match_witness :
  (Cinder.backend_passes Cinder.volume_utils_extract_host
     (Cinder.store_for (PyStr "nodeA"))).1 = Returns true
  ∧ (Cinder.backend_passes Cinder.volume_utils_extract_host
       (Cinder.store_for (PyStr "nodea"))).1 = Returns false
  ∧ (Cinder.backend_passes Cinder.volume_utils_extract_host
       (Cinder.store_for (PyStr "node"))).1 = Returns false
  ∧ (Cinder.backend_passes Cinder.volume_utils_extract_host
       (Cinder.store_for (PyStr "node*"))).1 = Returns false.
Proof.
  split; [|split; [|split]].
  - apply (backend_passes_exact_match Cinder.volume_utils_extract_host
             (Cinder.store_for (PyStr "nodeA"))
             {[ Cinder.HINT_KEYWORD := PyStr "nodeA" ]} (PyStr "nodeA")
             eq_refl eq_refl eq_refl).
    reflexivity.
  - apply (backend_passes_exact_match Cinder.volume_utils_extract_host
             (Cinder.store_for (PyStr "nodea"))
             {[ Cinder.HINT_KEYWORD := PyStr "nodea" ]} (PyStr "nodea")
             eq_refl eq_refl eq_refl).
    discriminate.
  - apply (backend_passes_exact_match Cinder.volume_utils_extract_host
             (Cinder.store_for (PyStr "node"))
             {[ Cinder.HINT_KEYWORD := PyStr "node" ]} (PyStr "node")
             eq_refl eq_refl eq_refl).
    discriminate.
  - apply (backend_passes_exact_match Cinder.volume_utils_extract_host
             (Cinder.store_for (PyStr "node*"))
             {[ Cinder.HINT_KEYWORD := PyStr "node*" ]} (PyStr "node*")
             eq_refl eq_refl eq_refl).
    discriminate.
Defined.

(** C7, as stated: every evaluation performs exactly one remote lookup.  An
    evaluation of a request without hints returns at the guard and performs
    none. *)
Lemma host_passes_no_hint_no_lookup :
  lookups (answering (Returns (volume_on (PyStr "nodeA@lvm-1"))))
          (store_no_hints "nodeA") = []
  ∧ ¬ (∀ cinder st, length (lookups cinder st) = 1).
Proof.
  split; [reflexivity|].
  intros Hone.
  specialize (Hone (answering (Returns (volume_on (PyStr "nodeA@lvm-1"))))
                   (store_no_hints "nodeA")).
  discriminate Hone.
Qed.

(** C7, amended.  Affinity-Resolution Filter: an evaluation sends at most
    one request to the Cinder API.  It sends none when the
    [same_volume_host] hint is absent or falsy, and none when the hint is set
    but the request has no context to elevate or the Cinder client cannot be
    built: these failures happen inside the [try], before [volumes.get].  It
    sends exactly one, with the elevated context and the hint value, when the
    hint is set and context and client are obtained, whether that request is
    answered with a volume or with an exception: a failed lookup is not tried
    again.  The evaluation then runs as it does against the answer to that
    one request, so the answer is resolved before the evaluation returns. *)
Theorem host_passes_one_lookup (cinder : CinderAPI) (st : Store) :
  (length (lookups cinder st) ≤ 1)%nat
  ∧ (truthy (get_scheduler_hint (spec_obj st) "same_volume_host") = false →
     lookups cinder st = [])
  ∧ (truthy (get_scheduler_hint (spec_obj st) "same_volume_host") = true →
     _context (spec_obj st) = None →
     lookups cinder st = [] ∧ (host_passes cinder st).1 = Returns false)
  ∧ (∀ ctxt e,
       truthy (get_scheduler_hint (spec_obj st) "same_volume_host") = true →
       _context (spec_obj st) = Some ctxt →
       cinderclient_error cinder (elevated ctxt) = Some e →
       lookups cinder st = [])
  ∧ (∀ ctxt,
       truthy (get_scheduler_hint (spec_obj st) "same_volume_host") = true →
       _context (spec_obj st) = Some ctxt →
       cinderclient_error cinder (elevated ctxt) = None →
       lookups cinder st
       = [(elevated ctxt,
           get_scheduler_hint (spec_obj st) "same_volume_host")]
       ∧ host_passes cinder st
         = host_passes
             (answering
                (volumes_get_answer cinder (cinder_requests st)
                   (elevated ctxt)
                   (get_scheduler_hint (spec_obj st) "same_volume_host")))
             st).
Proof.
  assert (Hlookups : lookups cinder st
            = if truthy (get_scheduler_hint (spec_obj st) "same_volume_host")
              then option_list (lookup_request cinder st) else []).
  { unfold lookups. rewrite host_passes_requests.
    by rewrite drop_app_length. }
  split; [|split; [|split; [|split]]].
  - rewrite Hlookups. destruct (truthy _); [|simpl; lia].
    destruct (lookup_request cinder st); simpl; lia.
  - intros Hhint. by rewrite Hlookups, Hhint.
  - intros Hhint Hctx. split.
    + rewrite Hlookups, Hhint. unfold lookup_request. by rewrite Hctx.
    + unfold host_passes. unfold mbind at 1, M_bind at 1, gets at 1.
      rewrite Hhint. unfold_effects. simpl. by rewrite Hctx.
  - intros ctxt e Hhint Hctx Hclient.
    rewrite Hlookups, Hhint. unfold lookup_request.
    by rewrite Hctx, Hclient.
  - intros ctxt Hhint Hctx Hclient. split.
    + rewrite Hlookups, Hhint. unfold lookup_request.
      by rewrite Hctx, Hclient.
    + unfold host_passes. unfold_effects. simpl.
      rewrite Hhint. simpl. rewrite Hctx. simpl. rewrite Hclient.
      reflexivity.
Qed.

(** C8.  Both filters: two evaluations with the same candidate, the same
    request and the same outcome of the lookup return the same boolean,
    whatever the log holds and whatever was requested before. *)
Theorem evaluate_deterministic :
  (∀ extract_host (st1 st2 : Cinder.Store),
     Cinder.backend_state st1 = Cinder.backend_state st2 →
     Cinder.filter_properties st1 = Cinder.filter_properties st2 →
     (Cinder.backend_passes extract_host st1).1
     = (Cinder.backend_passes extract_host st2).1)
  ∧ (∀ (c1 c2 : CinderAPI) (st1 st2 : Store),
       host_state st1 = host_state st2 →
       spec_obj st1 = spec_obj st2 →
       lookup_outcome c1 st1 = lookup_outcome c2 st2 →
       (host_passes c1 st1).1 = (host_passes c2 st2).1).
Proof.
  split.
  - apply backend_passes_verdict.
  - apply host_passes_verdict.
Qed.

(** C9.  Both filters: the candidate and the request (its hint map
    included) are the same after an evaluation as before it. *)
Theorem evaluate_leaves_inputs_unchanged :
  (∀ extract_host (st : Cinder.Store),
     Cinder.backend_state (Cinder.backend_passes extract_host st).2
     = Cinder.backend_state st
     ∧ Cinder.filter_properties (Cinder.backend_passes extract_host st).2
       = Cinder.filter_properties st)
  ∧ (∀ cinder (st : Store),
       host_state (host_passes cinder st).2 = host_state st
       ∧ spec_obj (host_passes cinder st).2 = spec_obj st).
Proof.
  split.
  - apply backend_passes_frame.
  - apply host_passes_frame.
Qed.

(** C10.  Affinity-Resolution Filter: a volume whose attribute
    [os-vol-host-attr:host] is the empty string is treated as a volume
    without the attribute: the evaluation runs as it does on the volume with
    the attribute removed, returns [False] for every candidate, and logs the
    could-not-determine-host warning in place of a comparison. *)
Theorem host_passes_empty_owner_as_missing
    (cinder : CinderAPI) (st : Store) (volume : Volume) :
  truthy (get_scheduler_hint (spec_obj st) "same_volume_host") = true →
  lookup_outcome cinder st = Returns volume →
  volume !! "os-vol-host-attr:host" = Some (PyStr "") →
  host_passes cinder st
  = host_passes
      (answering (Returns (delete "os-vol-host-attr:host" volume))) st
  ∧ (host_passes cinder st).1 = Returns false
  ∧ LOG (host_passes cinder st).2
    = (LOG st ++
       [mkLog WARNING
          [Lit "Could not determine host for volume ";
           Val (get_scheduler_hint (spec_obj st) "same_volume_host")]])%list.
Proof.
  intros Hhint Hout Hattr.
  rewrite (host_passes_no_owner cinder st Hhint volume Hout);
    [|unfold getattr; by rewrite Hattr].
  destruct (lookup_answering cinder st volume
              (Returns (delete "os-vol-host-attr:host" volume)) Hout)
    as [Hout' Hsent].
  rewrite (host_passes_no_owner _ st Hhint
             (delete "os-vol-host-attr:host" volume) Hout');
    [by rewrite Hsent|].
  unfold getattr. by rewrite lookup_delete_eq.
Qed.

(** ** The claims at concrete inputs *)

(** One request is sent to an API that fails on the first request and would
    answer the second: the evaluation does not ask again.  No request is sent
    when the client cannot be built, or when the request has no context. *)
Lemma host_passes_one_lookup_witness :
  lookups (flaky (volume_on (PyStr "nodeA@lvm-1")))
          (store_for "nodeA" (PyStr "vol-123"))
  = [(mkRequestContext "alice" "demo" true, PyStr "vol-123")]
  ∧ lookups (unreachable (mkExc cinder_exc_Unauthorized "401")
               (volume_on (PyStr "nodeA@lvm-1")))
            (store_for "nodeA" (PyStr "vol-123")) = []
  ∧ lookups (answering (Returns (volume_on (PyStr "nodeA@lvm-1"))))
            (store_without_context "nodeA" (PyStr "vol-123")) = [].
Proof.
  split; [|split].
  - apply (proj2 (proj2 (proj2 (proj2
             (host_passes_one_lookup
                (flaky (volume_on (PyStr "nodeA@lvm-1")))
                (store_for "nodeA" (PyStr "vol-123"))))))
             ctxt0 eq_refl eq_refl eq_refl).
  - apply (proj1 (proj2 (proj2 (proj2
             (host_passes_one_lookup
                (unreachable (mkExc cinder_exc_Unauthorized "401")
                   (volume_on (PyStr "nodeA@lvm-1")))
                (store_for "nodeA" (PyStr "vol-123"))))))
             ctxt0 (mkExc cinder_exc_Unauthorized "401")
             eq_refl eq_refl eq_refl).
  - apply (proj1 (proj2 (proj2
             (host_passes_one_lookup
                (answering (Returns (volume_on (PyStr "nodeA@lvm-1"))))
                (store_without_context "nodeA" (PyStr "vol-123")))))
             eq_refl eq_refl).
Defined.

Lemma evaluate_deterministic_witness :
  (Cinder.backend_passes Cinder.volume_utils_extract_host
     (Cinder.store_for (PyStr "nodeB"))).1
  = (Cinder.backend_passes Cinder.volume_utils_extract_host
       (Cinder.store_later (PyStr "nodeB"))).1
  ∧ (host_passes (answering (Returns (volume_on (PyStr "nodeA@lvm-1"))))
                 (store_for "nodeA" (PyStr "vol-123"))).1
    = (host_passes (flaky (volume_on (PyStr "nodeA@lvm-1")))
                   (store_later "nodeA" (PyStr "vol-123"))).1.
Proof.
  split.
  - apply (proj1 evaluate_deterministic); reflexivity.
  - apply (proj2 evaluate_deterministic); reflexivity.
Defined.

Lemma host_passes_empty_owner_as_missing_witness :
  (host_passes (answering (Returns (volume_on (PyStr ""))))
               (store_for "" (PyStr "vol-123"))).1 = Returns false.
Proof.
  destruct (host_passes_empty_owner_as_missing
              (answering (Returns (volume_on (PyStr ""))))
              (store_for "" (PyStr "vol-123")) (volume_on (PyStr "")))
    as (_ & Hrun & _); [reflexivity | reflexivity | reflexivity | exact Hrun].
Defined.

(** The scenario of the specification: hint [{"same_volume_host": "vol-123"}],
    owning identity ["hostX@lvm-1"]. *)
Example scenario_hostX :
  (host_passes (answering (Returns (volume_on (PyStr "hostX@lvm-1"))))
               (store_for "hostX" (PyStr "vol-123"))).1 = Returns true.
Proof. reflexivity. Qed.

Example scenario_hostY :
  host_passes (answering (Returns (volume_on (PyStr "hostX@lvm-1"))))
              (store_for "hostY" (PyStr "vol-123"))
  = (Returns false,
     mkStore (mkHostState "hostY" "node-1")
       (mkRequestSpec (Some ctxt0)
          (Some {[ "same_volume_host" := PyStr "vol-123" ]}))
       [mkLog DEBUG
          [Lit "Host "; Val (PyStr "hostY");
           Lit " does not match volume location "; Val (PyStr "hostX");
           Lit " for volume "; Val (PyStr "vol-123")]]
       [(mkRequestContext "alice" "demo" true, PyStr "vol-123")]).
Proof. reflexivity. Qed.

(** An owning identity that is not a string has no [split]; the
    [AttributeError] is caught with the other errors. *)
Example scenario_owner_not_a_string :
  (host_passes (answering (Returns (volume_on (PyInt 7))))
               (store_for "hostX" (PyStr "vol-123"))).1 = Returns false.
Proof. reflexivity. Qed.

(** What does not derive from [Exception] is not an error and is not
    caught. *)
Example scenario_interrupt :
  (host_passes (answering (Raises (mkExc KeyboardInterrupt "")))
               (store_for "hostX" (PyStr "vol-123"))).1
  = Raises (mkExc KeyboardInterrupt "").
Proof. reflexivity. Qed.

(** A backend with an identity without delimiter is its own host. *)
Example scenario_plain_backend :
  (Cinder.backend_passes Cinder.volume_utils_extract_host
     (Cinder.mkStore (Cinder.mkBackendState "nodeA" 10)
        (Cinder.request_for (PyStr "nodeA")) [])).1 = Returns true.
Proof. reflexivity. Qed.

(** * Further properties of the two filters *)

(** ** Shared lemmas *)

Lemma substring_before_app (sep : ascii) (h rest : string) :
  occurs sep h = false →
  substring_before sep (h ++ String sep rest) = h.
Proof.
  induction h as [|c h IH]; intros Hfree.
  - change (substring_before sep (String sep rest) = ""). simpl.
    by rewrite Ascii.eqb_refl.
  - change (substring_before sep (String c (h ++ String sep rest))
            = String c h).
    simpl in *. apply orb_false_elim in Hfree as [Hc Hh].
    rewrite Hc. by rewrite IH.
Qed.

Lemma getattr_str (volume : Volume) (name owner : string) :
  getattr volume name = PyStr owner ↔ volume !! name = Some (PyStr owner).
Proof.
  unfold getattr. destruct (volume !! name) as [v|]; simpl.
  - split; congruence.
  - split; discriminate.
Qed.

(** Case analysis along the paths of [host_passes]: the hint, the context,
    the client, the answer of the Cinder API, the owning identity, the
    comparison, the handlers. *)
Ltac host_passes_paths cinder :=
  unfold host_passes, lookup_outcome, lookup_request; unfold_effects; simpl;
  destruct (truthy (get_scheduler_hint _ _)) eqn:Hhint; simpl;
  [ destruct (_context (spec_obj _)) as [ctxt|] eqn:Hctx; simpl;
    [ destruct (cinderclient_error cinder _) as [early|] eqn:Hclient; simpl;
      [ destruct (isinstance early cinder_exc_NotFound) eqn:Hnf; simpl;
        [ | destruct (isinstance early Exception) eqn:Hexc; simpl ]
      | destruct (volumes_get_answer cinder _ _ _) as [volume|raised]
          eqn:Hout; simpl;
        [ destruct (truthy (getattr volume _)) eqn:Howner; simpl;
          [ destruct (getattr volume _) as [|b|z|owner|l|d] eqn:Hattr; simpl;
            [ | | | rewrite split_head; simpl;
                    destruct (String.eqb _ _) eqn:Hcmp; simpl | | ]
          | ]
        | destruct (isinstance raised cinder_exc_NotFound) eqn:Hnf; simpl;
          [ | destruct (isinstance raised Exception) eqn:Hexc; simpl ] ] ]
    | ]
  | ].

(** [True] comes from the guard or from a successful comparison. *)
Lemma host_passes_true_inv (cinder : CinderAPI) (st : Store) :
  (host_passes cinder st).1 = Returns true →
  truthy (get_scheduler_hint (spec_obj st) "same_volume_host") = false
  ∨ ∃ volume owner,
      lookup_outcome cinder st = Returns volume
      ∧ volume !! "os-vol-host-attr:host" = Some (PyStr owner)
      ∧ owner ≠ ""
      ∧ host (host_state st) = substring_before "@" owner.
Proof.
  host_passes_paths cinder; intros Hrun; try discriminate Hrun;
    [|by left].
  right. exists volume, owner. split; [done|].
  split; [by apply getattr_str|].
  split; [by apply truthy_str|].
  by apply String.eqb_eq.
Qed.

(** What escapes [host_passes] was raised by the lookup and is no
    [Exception]. *)
Lemma host_passes_raises_inv (cinder : CinderAPI) (st : Store)
    (e : exception) :
  (host_passes cinder st).1 = Raises e →
  truthy (get_scheduler_hint (spec_obj st) "same_volume_host") = true
  ∧ lookup_outcome cinder st = Raises e
  ∧ isinstance e Exception = false.
Proof.
  host_passes_paths cinder; intros Hrun; try discriminate Hrun.
  all: injection Hrun as <-; done.
Qed.

(** ** [VolumeAffinityFilter.host_passes] *)

(** X1.  [host_passes] returns [True] in two cases only: the
    [same_volume_host] hint is absent or falsy, or the lookup answered with a
    volume whose owning identity is a non-empty string and the candidate's
    host is its part before the first ['@'].  In every other case the
    candidate is not passed. *)
Theorem host_passes_true_iff (cinder : CinderAPI) (st : Store) :
  (host_passes cinder st).1 = Returns true
  ↔ (truthy (get_scheduler_hint (spec_obj st) "same_volume_host") = false
     ∨ ∃ volume owner,
         lookup_outcome cinder st = Returns volume
         ∧ volume !! "os-vol-host-attr:host" = Some (PyStr owner)
         ∧ owner ≠ ""
         ∧ host (host_state st) = substring_before "@" owner).
Proof.
  split; [apply host_passes_true_inv|].
  destruct (truthy (get_scheduler_hint (spec_obj st) "same_volume_host"))
    eqn:Hhint.
  - intros [?|(volume & owner & Hout & Hattr & Hne & Hhost)]; [done|].
    apply getattr_str in Hattr.
    rewrite (host_passes_owner cinder st Hhint volume owner Hout Hattr Hne).
    simpl. rewrite Hhost, String.eqb_refl. reflexivity.
  - intros _. by rewrite (host_passes_skip cinder st Hhint).
Qed.

Lemma host_passes_true_iff_witness :
  (host_passes (answering (Returns (volume_on (PyStr "nodeA@lvm-1#pool"))))
               (store_for "nodeA" (PyStr "vol-123"))).1 = Returns true.
Proof.
  apply (proj2 (host_passes_true_iff _ _)). right.
  exists (volume_on (PyStr "nodeA@lvm-1#pool")), "nodeA@lvm-1#pool".
  split; [reflexivity|]. split; [reflexivity|].
  split; [discriminate|reflexivity].
Defined.

(** X2.  With the hint set, a volume selects one host name: two candidates
    that both pass for the same request and the same answer of the Cinder
    API have the same host. *)
Theorem host_passes_selects_one_host
    (c1 c2 : CinderAPI) (st1 st2 : Store) :
  spec_obj st1 = spec_obj st2 →
  truthy (get_scheduler_hint (spec_obj st1) "same_volume_host") = true →
  lookup_outcome c1 st1 = lookup_outcome c2 st2 →
  (host_passes c1 st1).1 = Returns true →
  (host_passes c2 st2).1 = Returns true →
  host (host_state st1) = host (host_state st2).
Proof.
  intros Hspec Hhint Hout Hrun1 Hrun2.
  apply host_passes_true_inv in Hrun1 as [?|(v1 & o1 & Hout1 & Ha1 & _ & ->)];
    [congruence|].
  apply host_passes_true_inv in Hrun2 as [?|(v2 & o2 & Hout2 & Ha2 & _ & ->)];
    [congruence|].
  assert (v1 = v2) as -> by congruence.
  assert (o1 = o2) as -> by congruence.
  reflexivity.
Qed.

Lemma host_passes_selects_one_host_witness :
  host (host_state (store_for "nodeA" (PyStr "vol-123")))
  = host (host_state (store_later "nodeA" (PyStr "vol-123"))).
Proof.
  apply (host_passes_selects_one_host
           (answering (Returns (volume_on (PyStr "nodeA@lvm-1"))))
           (flaky (volume_on (PyStr "nodeA@lvm-1")))
           (store_for "nodeA" (PyStr "vol-123"))
           (store_later "nodeA" (PyStr "vol-123")));
    reflexivity.
Defined.

(** X3.  The exception boundary of [host_passes]: an exception leaves the
    evaluation exactly when the hint is set and the lookup raised something
    that is no [Exception] (a [KeyboardInterrupt], a [SystemExit]); it leaves
    as it was raised.  No [Exception], be it from the Cinder client or from
    the handling of the volume, ever reaches the caller. *)
Theorem host_passes_raises_iff
    (cinder : CinderAPI) (st : Store) (e : exception) :
  (host_passes cinder st).1 = Raises e
  ↔ truthy (get_scheduler_hint (spec_obj st) "same_volume_host") = true
    ∧ lookup_outcome cinder st = Raises e
    ∧ isinstance e Exception = false.
Proof.
  split; [apply host_passes_raises_inv|].
  intros (Hhint & Hout & Hexc).
  by rewrite (host_passes_uncaught cinder st Hhint e Hout Hexc).
Qed.

Lemma host_passes_raises_iff_witness :
  (host_passes (answering (Raises (mkExc SystemExit "")))
               (store_for "nodeA" (PyStr "vol-123"))).1
  = Raises (mkExc SystemExit "").
Proof.
  apply (proj2 (host_passes_raises_iff _ _ _)).
  split; [reflexivity|]. split; reflexivity.
Defined.

(** X4.  An owning identity that is truthy and not a string (a number, a
    list) has no [split]: the [AttributeError] is caught by the general
    handler, the evaluation returns [False] and logs the error. *)
Theorem host_passes_owner_not_a_string
    (cinder : CinderAPI) (st : Store) (volume : Volume) (owner : pyval) :
  truthy (get_scheduler_hint (spec_obj st) "same_volume_host") = true →
  lookup_outcome cinder st = Returns volume →
  volume !! "os-vol-host-attr:host" = Some owner →
  truthy owner = true →
  (∀ s, owner ≠ PyStr s) →
  (host_passes cinder st).1 = Returns false
  ∧ ∃ ex, exc_type ex = AttributeError
      ∧ LOG (host_passes cinder st).2
        = (LOG st ++
           [mkLog ERROR
              [Lit "Error checking volume location for volume ";
               Val (get_scheduler_hint (spec_obj st) "same_volume_host");
               Lit ": "; Exc ex]])%list.
Proof.
  intros Hhint Hout Hattr Howner Hstr.
  assert (Hget : getattr volume "os-vol-host-attr:host" = owner).
  { unfold getattr. by rewrite Hattr. }
  assert (Hrun : host_passes cinder st
            = (Returns false,
               mkStore (host_state st) (spec_obj st)
                 (LOG st ++
                  [mkLog ERROR
                     [Lit "Error checking volume location for volume ";
                      Val (get_scheduler_hint (spec_obj st) "same_volume_host");
                      Lit ": ";
                      Exc (mkExc AttributeError
                             "object has no attribute 'split'")]])
                 (cinder_requests st
                  ++ option_list (lookup_request cinder st)))).
  { revert Hout. enter_lookup Hhint; [discriminate| |discriminate].
    intros Hout. rewrite Hout, Hget, Howner. simpl.
    destruct owner as [|b|z|s|l|d]; try reflexivity.
    by destruct (Hstr s). }
  rewrite Hrun. split; [reflexivity|].
  eexists. split; [|reflexivity]. reflexivity.
Qed.

Lemma host_passes_owner_not_a_string_witness :
  (host_passes (answering (Returns (volume_on (PyList [PyStr "nodeA"]))))
               (store_for "nodeA" (PyStr "vol-123"))).1 = Returns false.
Proof.
  apply (host_passes_owner_not_a_string
           (answering (Returns (volume_on (PyList [PyStr "nodeA"]))))
           (store_for "nodeA" (PyStr "vol-123"))
           (volume_on (PyList [PyStr "nodeA"])) (PyList [PyStr "nodeA"]));
    [reflexivity | reflexivity | reflexivity | reflexivity | discriminate].
Defined.

(** X5.  Backend and pool of the volume play no part: when the owning
    identity is [h@rest] with no ['@'] in [h], the candidate passes exactly
    when its host is [h], whatever [rest] is. *)
Theorem host_passes_ignores_backend_and_pool
    (cinder : CinderAPI) (st : Store) (volume : Volume) (h rest : string) :
  truthy (get_scheduler_hint (spec_obj st) "same_volume_host") = true →
  lookup_outcome cinder st = Returns volume →
  volume !! "os-vol-host-attr:host" = Some (PyStr (h ++ String "@" rest)) →
  occurs "@" h = false →
  (host_passes cinder st).1 = Returns (bool_decide (host (host_state st) = h)).
Proof.
  intros Hhint Hout Hattr%getattr_str Hfree.
  assert (Hne : (h ++ String "@" rest)%string ≠ "") by by destruct h.
  rewrite (host_passes_owner cinder st Hhint volume _ Hout Hattr Hne).
  simpl. rewrite (substring_before_app "@" h rest Hfree).
  destruct (String.eqb_spec (host (host_state st)) h) as [Heq|Hneq]; simpl.
  - by rewrite bool_decide_eq_true_2.
  - by rewrite bool_decide_eq_false_2.
Qed.

Lemma host_passes_ignores_backend_and_pool_witness :
  (host_passes (answering (Returns (volume_on (PyStr "nodeA@ceph#fast"))))
               (store_for "nodeA" (PyStr "vol-123"))).1 = Returns true.
Proof.
  apply (host_passes_ignores_backend_and_pool
           (answering (Returns (volume_on (PyStr "nodeA@ceph#fast"))))
           (store_for "nodeA" (PyStr "vol-123"))
           (volume_on (PyStr "nodeA@ceph#fast")) "nodeA" "ceph#fast");
    reflexivity.
Defined.

(** X6.  With the hint set, a candidate whose host contains ['@'] never
    passes: the name it is compared with has none. *)
Theorem host_passes_rejects_host_with_at (cinder : CinderAPI) (st : Store) :
  truthy (get_scheduler_hint (spec_obj st) "same_volume_host") = true →
  occurs "@" (host (host_state st)) = true →
  (host_passes cinder st).1 ≠ Returns true.
Proof.
  intros Hhint Hat Hrun.
  apply host_passes_true_inv in Hrun as [?|(volume & owner & _ & _ & _ & Hhost)];
    [congruence|].
  rewrite Hhost, substring_before_free in Hat. discriminate.
Qed.

Lemma host_passes_rejects_host_with_at_witness :
  (host_passes (answering (Returns (volume_on (PyStr "nodeA@lvm-1"))))
               (store_for "nodeA@lvm-1" (PyStr "vol-123"))).1 ≠ Returns true.
Proof.
  apply (host_passes_rejects_host_with_at
           (answering (Returns (volume_on (PyStr "nodeA@lvm-1"))))
           (store_for "nodeA@lvm-1" (PyStr "vol-123"))); reflexivity.
Defined.

(** X7.  The log only grows: an evaluation that returns has appended exactly
    one record to the log it found, and an evaluation that raises has left
    the log as it was. *)
Theorem host_passes_log_appends_one (cinder : CinderAPI) (st : Store) :
  match (host_passes cinder st).1 with
  | Returns _ => ∃ r, LOG (host_passes cinder st).2 = (LOG st ++ [r])%list
  | Raises _ => LOG (host_passes cinder st).2 = LOG st
  end.
Proof.
  host_passes_paths cinder; try (eexists; reflexivity); reflexivity.
Qed.

(** X8.  The two [except] clauses in their order: a lookup error that is a
    [NotFound] is logged as a warning naming the volume, although it is an
    [Exception] as well; every other [Exception] is logged as an error that
    carries the exception. *)
Theorem host_passes_failure_diagnostic
    (cinder : CinderAPI) (st : Store) (e : exception) :
  truthy (get_scheduler_hint (spec_obj st) "same_volume_host") = true →
  lookup_outcome cinder st = Raises e →
  isinstance e Exception = true →
  LOG (host_passes cinder st).2
  = (LOG st ++
     [if isinstance e cinder_exc_NotFound then
        mkLog WARNING
          [Lit "Volume ";
           Val (get_scheduler_hint (spec_obj st) "same_volume_host");
           Lit " not found in Cinder"]
      else
        mkLog ERROR
          [Lit "Error checking volume location for volume ";
           Val (get_scheduler_hint (spec_obj st) "same_volume_host");
           Lit ": "; Exc e]])%list.
Proof.
  intros Hhint Hout Hexc.
  destruct (isinstance e cinder_exc_NotFound) eqn:Hnf.
  - by rewrite (host_passes_not_found cinder st Hhint e Hout Hnf).
  - by rewrite (host_passes_error cinder st Hhint e Hout Hnf Hexc).
Qed.

Lemma host_passes_failure_diagnostic_witness :
  LOG (host_passes (answering (Raises (mkExc cinder_exc_NotFound "404")))
                   (store_for "nodeA" (PyStr "vol-123"))).2
  = [mkLog WARNING
       [Lit "Volume "; Val (PyStr "vol-123"); Lit " not found in Cinder"]]
  ∧ LOG (host_passes (answering (Raises (mkExc cinder_exc_Unauthorized "401")))
                     (store_for "nodeA" (PyStr "vol-123"))).2
    = [mkLog ERROR
         [Lit "Error checking volume location for volume ";
          Val (PyStr "vol-123"); Lit ": ";
          Exc (mkExc cinder_exc_Unauthorized "401")]].
Proof.
  split.
  - apply (host_passes_failure_diagnostic
             (answering (Raises (mkExc cinder_exc_NotFound "404")))
             (store_for "nodeA" (PyStr "vol-123"))
             (mkExc cinder_exc_NotFound "404")); reflexivity.
  - apply (host_passes_failure_diagnostic
             (answering (Raises (mkExc cinder_exc_Unauthorized "401")))
             (store_for "nodeA" (PyStr "vol-123"))
             (mkExc cinder_exc_Unauthorized "401")); reflexivity.
Defined.

(** ** [TargetHostFilter.backend_passes] *)

(** The three ways an evaluation of [backend_passes] can go, by the shape of
    the request. *)
Lemma backend_passes_cases (extract_host : string → string → string)
    (st : Cinder.Store) :
  (Cinder.unconstrained (Cinder.filter_properties st)
   ∧ Cinder.backend_passes extract_host st = (Returns true, st))
  ∨ (∃ d target_host,
       Cinder.filter_properties st !! "scheduler_hints" = Some (PyDict d)
       ∧ d !! Cinder.HINT_KEYWORD = Some target_host
       ∧ truthy target_host = true)
  ∨ (∃ v,
       Cinder.filter_properties st !! "scheduler_hints" = Some v
       ∧ truthy v = true
       ∧ (∀ d, v ≠ PyDict d)
       ∧ Cinder.backend_passes extract_host st
         = (Raises (mkExc AttributeError "object has no attribute 'get'"),
            st)).
Proof.
  destruct (Cinder.filter_properties st !! "scheduler_hints") as [v|] eqn:Hfp.
  - destruct (truthy v) eqn:Hv.
    + destruct v as [|b|z|s|l|d]; [discriminate Hv| | | | |];
        try (right; right; eexists; split; [reflexivity|];
             split; [exact Hv|]; split; [discriminate|];
             unfold Cinder.backend_passes; unfold_effects; simpl;
             rewrite Hfp; unfold py_or; simpl in *; rewrite Hv; reflexivity).
      destruct (d !! Cinder.HINT_KEYWORD) as [t|] eqn:Hd.
      * destruct (truthy t) eqn:Ht.
        -- right; left. by exists d, t.
        -- assert (Cinder.unconstrained (Cinder.filter_properties st))
             as Hfree.
           { right; right. exists d. split; [done|]. right. by exists t. }
           left. split; [done|]. by apply backend_passes_skip.
      * assert (Cinder.unconstrained (Cinder.filter_properties st)) as Hfree.
        { right; right. exists d. split; [done|]. by left. }
        left. split; [done|]. by apply backend_passes_skip.
    + assert (Cinder.unconstrained (Cinder.filter_properties st)) as Hfree.
      { right; left. by exists v. }
      left. split; [done|]. by apply backend_passes_skip.
  - assert (Cinder.unconstrained (Cinder.filter_properties st)) as Hfree.
    { by left. }
    left. split; [done|]. by apply backend_passes_skip.
Qed.

(** X9.  [backend_passes] has no exception handler: it raises exactly when
    the ['scheduler_hints'] entry of the request is truthy and not a dict,
    the exception is the [AttributeError] of the failed [get], and nothing
    has been logged by then.  On every other request it returns a boolean. *)
Theorem backend_passes_raises_iff
    (extract_host : string → string → string) (st : Cinder.Store) :
  ((∃ e, (Cinder.backend_passes extract_host st).1 = Raises e)
   ↔ ∃ v, Cinder.filter_properties st !! "scheduler_hints" = Some v
          ∧ truthy v = true ∧ ∀ d, v ≠ PyDict d)
  ∧ (∀ e, (Cinder.backend_passes extract_host st).1 = Raises e →
          exc_type e = AttributeError
          ∧ (Cinder.backend_passes extract_host st).2 = st)
  ∧ ((∀ e, (Cinder.backend_passes extract_host st).1 ≠ Raises e) →
     ∃ b, (Cinder.backend_passes extract_host st).1 = Returns b).
Proof.
  destruct (backend_passes_cases extract_host st)
    as [[Hfree Hrun]|[(d & t & Hfp & Hd & Ht)|(v & Hfp & Hv & Hnd & Hrun)]].
  - rewrite Hrun. simpl. split; [split|split].
    + intros [e ?]. discriminate.
    + intros (v & Hfp & Hv & Hnd).
      destruct Hfree as [?|[(v' & ? & ?)|(d & ? & _)]]; [congruence| |].
      * congruence.
      * destruct (Hnd d). congruence.
    + intros e ?. discriminate.
    + intros _. by exists true.
  - rewrite (backend_passes_hint extract_host st d t Hfp Hd Ht). simpl.
    split; [split|split].
    + intros [e He]. by destruct (str_eq _ _).
    + intros (v & Hfp' & _ & Hnd). destruct (Hnd d). congruence.
    + intros e He. by destruct (str_eq _ _).
    + intros _. destruct (str_eq _ _); by eexists.
  - rewrite Hrun. simpl. split; [split|split].
    + intros _. by exists v.
    + intros _. by eexists.
    + intros e [= <-]. done.
    + intros Hno. by destruct (Hno _ eq_refl).
Qed.

Lemma backend_passes_raises_iff_witness :
  ∃ e, (Cinder.backend_passes Cinder.volume_utils_extract_host
          (Cinder.mkStore Cinder.backend1
             {[ "scheduler_hints" := PyStr "target_host=nodeA" ]} [])).1
       = Raises e.
Proof.
  apply (proj2 (proj1 (backend_passes_raises_iff _ _))).
  exists (PyStr "target_host=nodeA").
  split; [reflexivity|]. split; [reflexivity|discriminate].
Defined.

(** X10.  [backend_passes] logs exactly when it rejects: an evaluation that
    returns [True] or raises leaves the store, log included, as it was; an
    evaluation that returns [False] has appended one debug record that names
    the backend's host and the value of the [target_host] hint of the
    request, and nothing else has changed. *)
Theorem backend_passes_logs_iff_rejects
    (extract_host : string → string → string) (st : Cinder.Store) :
  match (Cinder.backend_passes extract_host st).1 with
  | Returns false =>
      ∃ d target_host,
        Cinder.filter_properties st !! "scheduler_hints" = Some (PyDict d)
        ∧ d !! Cinder.HINT_KEYWORD = Some target_host
        ∧ (Cinder.backend_passes extract_host st).2
          = Cinder.mkStore (Cinder.backend_state st)
              (Cinder.filter_properties st)
              (Cinder.LOG st ++
               [mkLog DEBUG
                  [Lit "Backend ";
                   Val (PyStr (extract_host
                                 (Cinder.backend_id (Cinder.backend_state st))
                                 "host"));
                   Lit " filtered out: does not match target host ";
                   Val target_host]])
  | _ => (Cinder.backend_passes extract_host st).2 = st
  end.
Proof.
  destruct (backend_passes_cases extract_host st)
    as [[Hfree Hrun]|[(d & t & Hfp & Hd & Ht)|(v & Hfp & Hv & Hnd & Hrun)]].
  - by rewrite Hrun.
  - rewrite (backend_passes_hint extract_host st d t Hfp Hd Ht). simpl.
    destruct (str_eq _ _); simpl; [done|]. by exists d, t.
  - by rewrite Hrun.
Qed.

(** X11.  A hint that is truthy and not a string (a list of names, a
    number) equals no host: every backend is rejected. *)
Theorem backend_passes_hint_not_a_string
    (extract_host : string → string → string) (st : Cinder.Store)
    (d : gmap string pyval) (target_host : pyval) :
  Cinder.filter_properties st !! "scheduler_hints" = Some (PyDict d) →
  d !! Cinder.HINT_KEYWORD = Some target_host →
  truthy target_host = true →
  (∀ s, target_host ≠ PyStr s) →
  (Cinder.backend_passes extract_host st).1 = Returns false.
Proof.
  intros Hfp Hd Ht Hstr.
  rewrite (backend_passes_hint extract_host st d target_host Hfp Hd Ht).
  simpl. destruct (str_eq _ _) eqn:Heq; [|done].
  apply str_eq_true in Heq. by destruct (Hstr _ Heq).
Qed.

Lemma backend_passes_hint_not_a_string_witness :
  (Cinder.backend_passes Cinder.volume_utils_extract_host
     (Cinder.store_for (PyList [PyStr "nodeA"]))).1 = Returns false.
Proof.
  apply (backend_passes_hint_not_a_string Cinder.volume_utils_extract_host
           (Cinder.store_for (PyList [PyStr "nodeA"]))
           {[ Cinder.HINT_KEYWORD := PyList [PyStr "nodeA"] ]}
           (PyList [PyStr "nodeA"]));
    [reflexivity | reflexivity | reflexivity | discriminate].
Defined.

(** X12.  A set hint selects one host: two backends that both pass for the
    same request have the same host component. *)
Theorem backend_passes_selects_one_host
    (extract_host : string → string → string) (st1 st2 : Cinder.Store)
    (d : gmap string pyval) (target_host : pyval) :
  Cinder.filter_properties st1 = Cinder.filter_properties st2 →
  Cinder.filter_properties st1 !! "scheduler_hints" = Some (PyDict d) →
  d !! Cinder.HINT_KEYWORD = Some target_host →
  truthy target_host = true →
  (Cinder.backend_passes extract_host st1).1 = Returns true →
  (Cinder.backend_passes extract_host st2).1 = Returns true →
  extract_host (Cinder.backend_id (Cinder.backend_state st1)) "host"
  = extract_host (Cinder.backend_id (Cinder.backend_state st2)) "host".
Proof.
  intros Hsame Hfp1 Hd Ht.
  assert (Hfp2 := Hfp1). rewrite Hsame in Hfp2.
  rewrite (backend_passes_hint extract_host st1 d target_host Hfp1 Hd Ht).
  rewrite (backend_passes_hint extract_host st2 d target_host Hfp2 Hd Ht).
  simpl.
  destruct (str_eq _ target_host) eqn:Heq1; [|discriminate].
  destruct (str_eq _ target_host) eqn:Heq2 in |- *; [|discriminate].
  intros _ _. apply str_eq_true in Heq1, Heq2. congruence.
Qed.

Lemma backend_passes_selects_one_host_witness :
  Cinder.volume_utils_extract_host "nodeA@lvm-1" "host"
  = Cinder.volume_utils_extract_host "nodeA@ceph#fast" "host".
Proof.
  apply (backend_passes_selects_one_host Cinder.volume_utils_extract_host
           (Cinder.store_for (PyStr "nodeA"))
           (Cinder.mkStore (Cinder.mkBackendState "nodeA@ceph#fast" 5)
              (Cinder.request_for (PyStr "nodeA")) [])
           {[ Cinder.HINT_KEYWORD := PyStr "nodeA" ]} (PyStr "nodeA"));
    reflexivity.
Defined.

(** X13.  An owning identity without ['@'] is compared as a whole: the
    candidate passes exactly when its host is that string. *)
Theorem host_passes_plain_owner
    (cinder : CinderAPI) (st : Store) (volume : Volume) (owner : string) :
  truthy (get_scheduler_hint (spec_obj st) "same_volume_host") = true →
  lookup_outcome cinder st = Returns volume →
  volume !! "os-vol-host-attr:host" = Some (PyStr owner) →
  owner ≠ "" →
  occurs "@" owner = false →
  (host_passes cinder st).1
  = Returns (bool_decide (host (host_state st) = owner)).
Proof.
  intros Hhint Hout Hattr%getattr_str Hne Hfree.
  rewrite (host_passes_owner cinder st Hhint volume owner Hout Hattr Hne).
  simpl. rewrite (substring_before_absent "@" owner Hfree).
  destruct (String.eqb_spec (host (host_state st)) owner) as [Heq|Hneq]; simpl.
  - by rewrite bool_decide_eq_true_2.
  - by rewrite bool_decide_eq_false_2.
Qed.

Lemma host_passes_plain_owner_witness :
  (host_passes (answering (Returns (volume_on (PyStr "nodeA"))))
               (store_for "nodeA" (PyStr "vol-123"))).1 = Returns true.
Proof.
  apply (host_passes_plain_owner
           (answering (Returns (volume_on (PyStr "nodeA"))))
           (store_for "nodeA" (PyStr "vol-123"))
           (volume_on (PyStr "nodeA")) "nodeA");
    [reflexivity | reflexivity | reflexivity | discriminate | reflexivity].
Defined.

(** ** Failures before the request is sent *)

(** The client cannot be built: the error is caught, the candidate is
    rejected and nothing was asked of the Cinder API. *)
Example scenario_no_client :
  host_passes (unreachable (mkExc cinder_exc_Unauthorized "401")
                 (volume_on (PyStr "nodeA@lvm-1")))
              (store_for "nodeA" (PyStr "vol-123"))
  = (Returns false,
     mkStore (mkHostState "nodeA" "node-1")
       (mkRequestSpec (Some ctxt0)
          (Some {[ "same_volume_host" := PyStr "vol-123" ]}))
       [mkLog ERROR
          [Lit "Error checking volume location for volume ";
           Val (PyStr "vol-123"); Lit ": ";
           Exc (mkExc cinder_exc_Unauthorized "401")]]
       []).
Proof. reflexivity. Qed.

(** The request carries no context: the [AttributeError] is caught, the
    candidate is rejected and nothing was asked of the Cinder API. *)
Example scenario_no_context :
  (host_passes (answering (Returns (volume_on (PyStr "nodeA@lvm-1"))))
               (store_without_context "nodeA" (PyStr "vol-123"))).1
  = Returns false
  ∧ cinder_requests
      (host_passes (answering (Returns (volume_on (PyStr "nodeA@lvm-1"))))
                   (store_without_context "nodeA" (PyStr "vol-123"))).2
    = [].
Proof. split; reflexivity. Qed.
